(** * Mergington High School activities API (src/app.py)

    A shallow embedding of the two roster handlers [signup_for_activity] and
    [remove_participant] together with the module-level [activities] dict,
    and the properties of the roster contract proved about them. *)

From stdpp Require Import gmap strings list fin_maps.

Local Open Scope Z_scope.

(** ** Data model *)

(** One value of the [activities] dict: the inner dict with its four fixed
    keys ["description"], ["schedule"], ["max_participants"] and
    ["participants"]. *)
Record activity := Activity {
  description : string;
  schedule : string;
  max_participants : Z;
  participants : list string
}.

(** The module-level dict.  Its keys are activity names. *)
Abbreviation directory := (gmap string activity).

(** The inner dicts are only ever reached through the outer dict, so a write
    through [activity = activities[name]] is a write to the entry under
    [name]: a reference is the key it was read from.  [with_participants] is
    the inner dict after its list has been mutated to [ps]. *)
Definition with_participants (ps : list string) (a : activity) : activity :=
  {| description := description a;
     schedule := schedule a;
     max_participants := max_participants a;
     participants := ps |}.

(** ** Python list operations used by the handlers *)
Module PyList.

(** [x in l] *)
Fixpoint contains (x : string) (l : list string) : bool :=
  match l with
  | [] => false
  | y :: l' => if decide (y = x) then true else contains x l'
  end.

(** [l.append(x)] *)
Definition append (l : list string) (x : string) : list string := l ++ [x].

(** [l.remove(x)]: drops the first item equal to [x]; [None] stands for the
    [ValueError] Python raises when there is none. *)
Fixpoint remove (x : string) (l : list string) : option (list string) :=
  match l with
  | [] => None
  | y :: l' =>
      if decide (y = x) then Some l'
      else match remove x l' with
           | Some r => Some (y :: r)
           | None => None
           end
  end.

(** [l.count(x)] *)
Fixpoint count (x : string) (l : list string) : nat :=
  match l with
  | [] => 0%nat
  | y :: l' => if decide (y = x) then S (count x l') else count x l'
  end.

End PyList.

(** ** Exceptions and handler results *)

Inductive exn :=
| HTTPException (status_code : Z) (detail : string)
| KeyError (key : string)
| ValueError (msg : string).

(** The JSON object [{"message": ...}] a handler returns. *)
Record reply := Reply { message : string }.

Inductive outcome (A : Type) :=
| Return (a : A)
| Raise (e : exn).
Arguments Return {A} a.
Arguments Raise {A} e.

(** A handler runs against the shared dict and leaves it, possibly mutated,
    behind; an exception does not roll anything back. *)
Definition handler (A : Type) : Type := directory → outcome A * directory.

Definition raise {A} (e : exn) : handler A := λ d, (Raise e, d).

#[global] Instance handler_ret : MRet handler := λ A (a : A) d, (Return a, d).
#[global] Instance handler_bind : MBind handler := λ A B (k : A → handler B) m d,
  match m d with
  | (Return a, d') => k a d'
  | (Raise e, d') => (Raise e, d')
  end.

(** [name in activities] *)
Definition has_activity (name : string) : handler bool :=
  λ d, (Return (bool_decide (is_Some (d !! name))), d).

(** [activities[name]]: the reference to the inner dict, [KeyError] when the
    key is missing. *)
Definition getitem (name : string) : handler string :=
  λ d, match d !! name with
       | Some _ => (Return name, d)
       | None => (Raise (KeyError name), d)
       end.

(** [activity["participants"]], read through the reference. *)
Definition get_participants (ref : string) : handler (list string) :=
  λ d, match d !! ref with
       | Some a => (Return (participants a), d)
       | None => (Raise (KeyError ref), d)
       end.

(** [activity["participants"].append(email)], in place. *)
Definition participants_append (ref email : string) : handler unit :=
  λ d, match d !! ref with
       | Some a =>
           (Return (), <[ref := with_participants (PyList.append (participants a) email) a]> d)
       | None => (Raise (KeyError ref), d)
       end.

(** [activity["participants"].remove(email)], in place. *)
Definition participants_remove (ref email : string) : handler unit :=
  λ d, match d !! ref with
       | Some a =>
           match PyList.remove email (participants a) with
           | Some ps => (Return (), <[ref := with_participants ps a]> d)
           | None => (Raise (ValueError "list.remove(x): x not in list"), d)
           end
       | None => (Raise (KeyError ref), d)
       end.

(** ** The seed *)

Definition activities : directory :=
  list_to_map [
    ("Chess Club",
      Activity "Learn strategies and compete in chess tournaments"
               "Fridays, 3:30 PM - 5:00 PM" 12
               ["michael@mergington.edu"; "daniel@mergington.edu"]);
    ("Programming Class",
      Activity "Learn programming fundamentals and build software projects"
               "Tuesdays and Thursdays, 3:30 PM - 4:30 PM" 20
               ["emma@mergington.edu"; "sophia@mergington.edu"]);
    ("Gym Class",
      Activity "Physical education and sports activities"
               "Mondays, Wednesdays, Fridays, 2:00 PM - 3:00 PM" 30
               ["john@mergington.edu"; "olivia@mergington.edu"]);
    ("Soccer Team",
      Activity "Practice soccer skills and compete with other schools"
               "Tuesdays, 4:00 PM - 5:30 PM" 18 []);
    ("Basketball Team",
      Activity "Train and play competitive basketball games"
               "Thursdays, 4:00 PM - 5:30 PM" 15 []);
    ("Art Club",
      Activity "Create paintings, drawings, and digital art"
               "Wednesdays, 3:30 PM - 5:00 PM" 16 []);
    ("Drama Club",
      Activity "Acting, improvisation, and stage performances"
               "Mondays, 4:00 PM - 5:30 PM" 14 []);
    ("Math Club",
      Activity "Solve challenging math problems and puzzles"
               "Fridays, 2:30 PM - 3:30 PM" 12 []);
    ("Robotics Club",
      Activity "Build and program robots"
               "Thursdays, 3:30 PM - 5:00 PM" 12 [])
  ].

(** ** The handlers *)

Definition get_activities : handler directory :=
  λ d, (Return d, d).

Definition signup_for_activity (activity_name email : string) : handler reply :=
  known ← has_activity activity_name;
  if negb known then raise (HTTPException 404 "Activity not found") else
  activity ← getitem activity_name;
  ps ← get_participants activity;
  if PyList.contains email ps
  then mret (Reply "Student already signed up for this activity") else
  participants_append activity email ;;
  mret (Reply ("Signed up " +:+ email +:+ " for " +:+ activity_name)).

Definition remove_participant (activity_name email : string) : handler reply :=
  known ← has_activity activity_name;
  if negb known then raise (HTTPException 404 "Activity not found") else
  activity ← getitem activity_name;
  ps ← get_participants activity;
  if negb (PyList.contains email ps)
  then raise (HTTPException 404 "Participant not found in this activity") else
  participants_remove activity email ;;
  mret (Reply ("Removed " +:+ email +:+ " from " +:+ activity_name)).

(** ** Request sequences and notions used to state the contract

    These are not functions of app.py: they name what the statements below
    quantify over. *)

(** Any request to one of the two roster endpoints. *)
Inductive request :=
| Signup (activity_name email : string)
| Remove (activity_name email : string).

Definition target (r : request) : string :=
  match r with Signup n _ | Remove n _ => n end.

Definition serve (r : request) : handler reply :=
  match r with
  | Signup n e => signup_for_activity n e
  | Remove n e => remove_participant n e
  end.

(** The dict after a sequence of requests, served one after the other. *)
Definition serve_all (rs : list request) (d : directory) : directory :=
  foldl (λ d r, (serve r d).2) d rs.

(** The invariant of the rosters: no email twice on any of them. *)
Definition rosters_distinct (d : directory) : Prop :=
  map_Forall (λ _ a, NoDup (participants a)) d.




(** The emails on the roster of [A] as a set; empty when [A] is no key. *)
Definition members (A : string) (d : directory) : gset string :=
  match d !! A with
  | Some a => list_to_set (participants a)
  | None => ∅
  end.

(** ** The [reset_activities] fixture (tests/test_app.py) *)
Module Fixture.

(** One value of [original_state]: the dict [{"participants": ...}]. *)
Record saved := Saved { saved_participants : list string }.

(** The dict comprehension before the [yield]: under each key a copy of the
    roster as it is now, which later in-place changes do not reach. *)
Definition save (d : directory) : gmap string saved :=
  (λ v, Saved (participants v)) <$> d.

(** The loop after the [yield], over the keys in the order [items()] gives
    them: the roster of each entry is assigned the saved list,
    [original_state[activity_name]] raising [KeyError] for a key that was
    not saved. *)
Fixpoint restore (names : list string) (original_state : gmap string saved)
  : handler unit :=
  match names with
  | [] => mret ()
  | activity_name :: names' =>
      λ d, match original_state !! activity_name with
           | Some s =>
               restore names' original_state
                 (alter (with_participants (saved_participants s)) activity_name d)
           | None => (Raise (KeyError activity_name), d)
           end
  end.

End Fixture.

(** ** Facts about the list operations *)
Section PyListFacts.
Implicit Types (x y : string) (l r : list string).

Lemma contains_true x l : PyList.contains x l = true ↔ x ∈ l.
Proof.
  induction l as [|y l IH]; simpl.
  - split; [discriminate | by intros ?%elem_of_nil].
  - case_decide as Hyx.
    + subst y. split; [intros _; left | done].
    + rewrite IH, elem_of_cons. intuition congruence.
Qed.

Lemma contains_false x l : PyList.contains x l = false ↔ x ∉ l.
Proof.
  rewrite <- contains_true. destruct (PyList.contains x l); intuition congruence.
Qed.

Lemma remove_None x l : PyList.remove x l = None ↔ x ∉ l.
Proof.
  induction l as [|y l IH]; simpl.
  - split; [intros _; apply not_elem_of_nil | done].
  - rewrite not_elem_of_cons. case_decide as Hyx.
    + subst y. intuition congruence.
    + destruct (PyList.remove x l); intuition congruence.
Qed.

(** [remove] takes out the leftmost occurrence and nothing else. *)
Lemma remove_Some x l r :
  PyList.remove x l = Some r ↔
  (∃ l1 l2, l = l1 ++ x :: l2 ∧ (x ∉ l1) ∧ r = l1 ++ l2).
Proof.
  revert r. induction l as [|y l IH]; intros r; simpl.
  - split; [discriminate |].
    intros (l1 & l2 & Hl & _). by destruct l1.
  - case_decide as Hyx.
    + subst y. split.
      * intros [= <-]. exists [], l. split_and!; [done | apply not_elem_of_nil | done].
      * intros (l1 & l2 & Hl & Hx & ->). destruct l1 as [|z l1]; simpl in *.
        -- by injection Hl as ->.
        -- injection Hl as <- _. exfalso. apply Hx. left.
    + destruct (PyList.remove x l) as [r'|] eqn:Hr.
      * destruct (proj1 (IH r') eq_refl) as (l1 & l2 & -> & Hx & ->).
        split.
        -- intros [= <-]. exists (y :: l1), l2.
           split_and!; [done | | done].
           rewrite not_elem_of_cons. split; [congruence | done].
        -- intros (k1 & k2 & Hl & Hk & ->). f_equal.
           destruct k1 as [|z k1]; simpl in *; [congruence |].
           injection Hl as <- Hl. f_equal.
           assert (Some (l1 ++ l2) = Some (k1 ++ k2)) as [= ->]; [| done].
           apply IH. exists k1, k2. split_and!; [done | | done].
           by apply not_elem_of_cons in Hk as [_ ?].
      * split; [discriminate |].
        intros (k1 & k2 & Hl & Hk & ->). exfalso.
        destruct k1 as [|z k1]; simpl in *; [congruence |].
        injection Hl as <- Hl.
        apply not_elem_of_cons in Hk as [_ Hk].
        assert (PyList.remove x l = Some (k1 ++ k2)) as Hc; [| congruence].
        rewrite Hl. clear -Hk. induction k1 as [|z k1 IHk]; simpl.
        -- by rewrite decide_True.
        -- apply not_elem_of_cons in Hk as [? ?].
           rewrite decide_False by congruence. by rewrite IHk.
Qed.

Lemma remove_append_fresh x l :
  x ∉ l → PyList.remove x (PyList.append l x) = Some l.
Proof.
  intros Hx. apply remove_Some. exists l, [].
  by rewrite app_nil_r.
Qed.

Lemma count_notin x l : x ∉ l → PyList.count x l = 0%nat.
Proof.
  induction l as [|y l IH]; simpl; [done |].
  rewrite not_elem_of_cons. intros [Hne Hx].
  rewrite decide_False by congruence. auto.
Qed.

Lemma count_app x l r :
  PyList.count x (l ++ r) = (PyList.count x l + PyList.count x r)%nat.
Proof.
  induction l as [|y l IH]; simpl; [done |].
  case_decide; rewrite IH; lia.
Qed.

Lemma count_pos x l : x ∈ l → (0 < PyList.count x l)%nat.
Proof.
  induction l as [|y l IH]; simpl.
  - by intros ?%elem_of_nil.
  - case_decide as Hyx; [lia |].
    rewrite elem_of_cons. intros [-> | Hx]; [done | auto].
Qed.

Lemma remove_count x l r :
  PyList.remove x l = Some r → PyList.count x l = S (PyList.count x r).
Proof.
  intros (l1 & l2 & -> & Hx & ->)%remove_Some.
  rewrite !count_app. simpl. rewrite decide_True by done. lia.
Qed.

Lemma remove_NoDup x l r :
  PyList.remove x l = Some r → NoDup l → NoDup r.
Proof.
  intros (l1 & l2 & -> & Hx & ->)%remove_Some.
  rewrite !NoDup_app, NoDup_cons. intros (? & Hd & _ & ?).
  split_and!; [done | | done].
  intros z Hz Hz2. apply (Hd z Hz). by right.
Qed.

Lemma append_NoDup x l : x ∉ l → NoDup l → NoDup (PyList.append l x).
Proof.
  intros Hx Hl. unfold PyList.append. rewrite NoDup_app.
  split_and!; [done | | apply NoDup_singleton].
  intros z Hz ->%list_elem_of_singleton. done.
Qed.

End PyListFacts.

(** ** The handlers, case by case *)

(** Runs a handler body symbolically: unfolds the monad and the store
    primitives, then rewrites with the known facts about the store. *)
Ltac unfold_handler :=
  unfold signup_for_activity, remove_participant, mbind, handler_bind, mret,
    handler_ret, raise, has_activity, getitem, get_participants,
    participants_append, participants_remove; simpl.

Ltac run_handler H1 H2 :=
  unfold_handler;
  repeat (progress (rewrite ?H1, ?H2; simpl));
  try reflexivity.

Section HandlerEquations.
Implicit Types (d : directory) (a : activity) (A e : string).

Lemma with_participants_same a : with_participants (participants a) a = a.
Proof. by destruct a. Qed.

Lemma with_participants_twice ps qs a :
  with_participants ps (with_participants qs a) = with_participants ps a.
Proof. done. Qed.

Lemma known_true d A a :
  d !! A = Some a → bool_decide (is_Some (d !! A)) = true.
Proof. intros ->. apply bool_decide_true. eauto. Qed.

Lemma known_false d A :
  d !! A = None → bool_decide (is_Some (d !! A)) = false.
Proof. intros ->. apply bool_decide_false. by intros [? ?]. Qed.

Lemma signup_unknown d A e :
  d !! A = None →
  signup_for_activity A e d = (Raise (HTTPException 404 "Activity not found"), d).
Proof. intros HA%known_false. by run_handler HA HA. Qed.

Lemma signup_member d A a e :
  d !! A = Some a → e ∈ participants a →
  signup_for_activity A e d
  = (Return (Reply "Student already signed up for this activity"), d).
Proof.
  intros HA He%contains_true. pose proof (known_true _ _ _ HA) as Hk.
  unfold_handler. rewrite Hk. simpl. by run_handler HA He.
Qed.

Lemma signup_fresh d A a e :
  d !! A = Some a → e ∉ participants a →
  signup_for_activity A e d
  = (Return (Reply ("Signed up " +:+ e +:+ " for " +:+ A)),
     <[A := with_participants (participants a ++ [e]) a]> d).
Proof.
  intros HA He%contains_false. pose proof (known_true _ _ _ HA) as Hk.
  unfold_handler. rewrite Hk. simpl. by run_handler HA He.
Qed.

Lemma remove_unknown d A e :
  d !! A = None →
  remove_participant A e d = (Raise (HTTPException 404 "Activity not found"), d).
Proof. intros HA%known_false. by run_handler HA HA. Qed.

Lemma remove_absent d A a e :
  d !! A = Some a → e ∉ participants a →
  remove_participant A e d
  = (Raise (HTTPException 404 "Participant not found in this activity"), d).
Proof.
  intros HA He%contains_false. pose proof (known_true _ _ _ HA) as Hk.
  unfold_handler. rewrite Hk. simpl. by run_handler HA He.
Qed.

Lemma remove_member d A a e ps :
  d !! A = Some a → PyList.remove e (participants a) = Some ps →
  remove_participant A e d
  = (Return (Reply ("Removed " +:+ e +:+ " from " +:+ A)),
     <[A := with_participants ps a]> d).
Proof.
  intros HA Hr. pose proof (known_true _ _ _ HA) as Hk.
  assert (PyList.contains e (participants a) = true) as He.
  { apply contains_true. destruct (decide (e ∈ participants a)) as [|Hn]; [done |].
    apply remove_None in Hn. congruence. }
  unfold_handler. rewrite Hk. simpl. run_handler HA He. by rewrite Hr.
Qed.

(** Every call leaves the entry it names with the same three descriptive
    fields, touches no other entry, and changes no key. *)
Lemma serve_lookup r d B :
  (serve r d).2 !! B = d !! B ∨
  (B = target r ∧ ∃ a ps, d !! B = Some a ∧
     (serve r d).2 !! B = Some (with_participants ps a)).
Proof.
  destruct r as [A e | A e]; simpl.
  - destruct (d !! A) as [a|] eqn:HA; [| rewrite signup_unknown by done; by left].
    destruct (decide (e ∈ participants a)) as [He | He].
    + erewrite signup_member by done. by left.
    + erewrite signup_fresh by done. simpl.
      destruct (decide (A = B)) as [<- | Hne].
      * right. rewrite lookup_insert_eq. eauto.
      * left. by rewrite lookup_insert_ne.
  - destruct (d !! A) as [a|] eqn:HA; [| rewrite remove_unknown by done; by left].
    destruct (PyList.remove e (participants a)) as [ps|] eqn:Hr.
    + erewrite remove_member by done. simpl.
      destruct (decide (A = B)) as [<- | Hne].
      * right. rewrite lookup_insert_eq. eauto.
      * left. by rewrite lookup_insert_ne.
    + apply remove_None in Hr. erewrite remove_absent by done. by left.
Qed.

End HandlerEquations.

(** ** The roster contract *)

(** C1. Signing up an email that is already on the roster of an existing
    activity returns the "already signed up" reply, which is a normal return
    and not an exception, and leaves the whole dict as it was; hence a second
    identical signup never changes the state the first one produced. *)
Theorem signup_idempotent (d : directory) (A e : string) :
  (∀ a, d !! A = Some a → e ∈ participants a →
     signup_for_activity A e d
     = (Return (Reply "Student already signed up for this activity"), d)) ∧
  (signup_for_activity A e (signup_for_activity A e d).2).2
  = (signup_for_activity A e d).2.
Proof.
  split; [intros a; apply signup_member |].
  destruct (d !! A) as [a|] eqn:HA.
  - destruct (decide (e ∈ participants a)) as [He | He].
    + rewrite (signup_member d A a e) by done. simpl.
      by rewrite (signup_member d A a e).
    + rewrite (signup_fresh d A a e) by done. simpl.
      rewrite (signup_member _ A (with_participants (participants a ++ [e]) a) e);
        [done | apply lookup_insert_eq |].
      simpl. apply elem_of_app. right. by left.
  - rewrite (signup_unknown d A e) by done. simpl.
    by rewrite (signup_unknown d A e).
Qed.

Lemma signup_idempotent_witness :
  signup_for_activity "Chess Club" "daniel@mergington.edu" activities
  = (Return (Reply "Student already signed up for this activity"), activities).
Proof.
  eapply (proj1 (signup_idempotent activities "Chess Club" "daniel@mergington.edu")).
  - vm_compute. reflexivity.
  - compute_done.
Defined.

(** C2. Signing up an email that is not yet on the roster of an existing
    activity returns the reply "Signed up <email> for <activity>" and puts the
    email behind the earlier entries, which keep their order: afterwards the
    roster holds the email exactly once and is one entry longer. *)
Theorem signup_appends (d : directory) (A e : string) (a : activity) :
  d !! A = Some a → e ∉ participants a →
  signup_for_activity A e d
  = (Return (Reply ("Signed up " +:+ e +:+ " for " +:+ A)),
     <[A := with_participants (participants a ++ [e]) a]> d) ∧
  participants <$> (signup_for_activity A e d).2 !! A
  = Some (participants a ++ [e]) ∧
  PyList.count e (participants a ++ [e]) = 1%nat ∧
  length (participants a ++ [e]) = S (length (participants a)).
Proof.
  intros HA He. rewrite (signup_fresh d A a e) by done. cbn [snd].
  split_and!; [done | by rewrite lookup_insert_eq | |].
  - rewrite count_app, count_notin by done. simpl. by rewrite decide_True.
  - rewrite length_app. simpl. lia.
Qed.

Lemma signup_appends_witness :
  signup_for_activity "Chess Club" "new@x.edu" activities
  = (Return (Reply "Signed up new@x.edu for Chess Club"),
     <["Chess Club" :=
         Activity "Learn strategies and compete in chess tournaments"
                  "Fridays, 3:30 PM - 5:00 PM" 12
                  ["michael@mergington.edu"; "daniel@mergington.edu"; "new@x.edu"]]>
       activities).
Proof.
  refine (proj1 (signup_appends activities "Chess Club" "new@x.edu"
    (Activity "Learn strategies and compete in chess tournaments"
              "Fridays, 3:30 PM - 5:00 PM" 12
              ["michael@mergington.edu"; "daniel@mergington.edu"]) _ _)).
  - vm_compute. reflexivity.
  - compute_done.
Defined.

(** *** Round trip *)

Lemma count_zero_notin (x : string) (l : list string) :
  PyList.count x l = 0%nat → x ∉ l.
Proof. intros Hc Hx%count_pos. lia. Qed.

(** C3, as the code has it. For an existing activity: when the email is not
    on the roster, signup followed by remove restores the whole dict, the
    roster in particular; and when the email occurs at most once on the
    roster (an absent email, or any email of a duplicate-free roster), a
    further remove after that pair raises
    HTTPException(404, "Participant not found in this activity"). *)
Theorem signup_remove_roundtrip (d : directory) (A e : string) (a : activity) :
  d !! A = Some a →
  let d2 := (remove_participant A e (signup_for_activity A e d).2).2 in
  (e ∉ participants a →
     d2 = d ∧ participants <$> d2 !! A = Some (participants a)) ∧
  ((PyList.count e (participants a) ≤ 1)%nat →
     remove_participant A e d2
     = (Raise (HTTPException 404 "Participant not found in this activity"), d2)).
Proof.
  intros HA d2.
  assert (e ∉ participants a → d2 = d) as Hfresh.
  { intros He. subst d2. rewrite (signup_fresh d A a e) by done. simpl.
    rewrite (remove_member _ A (with_participants (participants a ++ [e]) a)
               e (participants a));
      [| apply lookup_insert_eq | by apply remove_append_fresh].
    cbn [snd].
    rewrite insert_insert_eq, with_participants_twice, with_participants_same.
    by apply insert_id. }
  split.
  - intros He. rewrite (Hfresh He). by rewrite HA.
  - intros Hc. destruct (decide (e ∈ participants a)) as [He | He].
    + subst d2. rewrite (signup_member d A a e) by done. simpl.
      destruct (PyList.remove e (participants a)) as [ps|] eqn:Hr;
        [| by apply remove_None in Hr].
      rewrite (remove_member d A a e ps) by done. simpl.
      apply (remove_absent _ A (with_participants ps a) e);
        [apply lookup_insert_eq |].
      simpl. apply count_zero_notin. apply remove_count in Hr. lia.
    + rewrite (Hfresh He). by apply (remove_absent d A a e).
Qed.

Lemma signup_remove_roundtrip_witness :
  (remove_participant "Chess Club" "new@x.edu"
     (signup_for_activity "Chess Club" "new@x.edu" activities).2).2
  = activities.
Proof.
  refine (proj1 (proj1 (signup_remove_roundtrip
                          activities "Chess Club" "new@x.edu" _ _) _)).
  - vm_compute. reflexivity.
  - compute_done.
Defined.

(** The round trip does not hold for an email that is already on the roster:
    the signup changes nothing, the remove then succeeds and takes the earlier
    entry out, so the roster is not the one from before the signup. *)
Lemma roundtrip_breaks_for_member :
  participants <$> activities !! "Chess Club"
  = Some ["michael@mergington.edu"; "daniel@mergington.edu"] ∧
  (signup_for_activity "Chess Club" "michael@mergington.edu" activities).1
  = Return (Reply "Student already signed up for this activity") ∧
  (remove_participant "Chess Club" "michael@mergington.edu"
     (signup_for_activity "Chess Club" "michael@mergington.edu" activities).2).1
  = Return (Reply "Removed michael@mergington.edu from Chess Club") ∧
  participants <$>
    (remove_participant "Chess Club" "michael@mergington.edu"
       (signup_for_activity "Chess Club" "michael@mergington.edu" activities).2).2
      !! "Chess Club"
  = Some ["daniel@mergington.edu"] ∧
  participants <$>
    (remove_participant "Chess Club" "michael@mergington.edu"
       (signup_for_activity "Chess Club" "michael@mergington.edu" activities).2).2
      !! "Chess Club"
  ≠ participants <$> activities !! "Chess Club".
Proof.
  split_and!; vm_compute; [reflexivity .. | discriminate].
Qed.

(** *** No duplicates *)

Lemma seed_distinct : rosters_distinct activities.
Proof.
  intros A a HA. unfold activities in HA.
  apply elem_of_list_to_map_2 in HA.
  repeat (apply elem_of_cons in HA as [[= -> ->] | HA]; [compute_done |]).
  by apply elem_of_nil in HA.
Qed.

Lemma serve_distinct (r : request) (d : directory) :
  rosters_distinct d → rosters_distinct (serve r d).2.
Proof.
  intros Hd. destruct r as [A e | A e]; simpl.
  - destruct (d !! A) as [a|] eqn:HA; [| by rewrite signup_unknown].
    destruct (decide (e ∈ participants a)) as [He | He].
    + by rewrite (signup_member d A a e).
    + rewrite (signup_fresh d A a e) by done. simpl.
      apply map_Forall_insert_2; [| done].
      simpl. apply append_NoDup; [done | by apply (Hd A)].
  - destruct (d !! A) as [a|] eqn:HA; [| by rewrite remove_unknown].
    destruct (PyList.remove e (participants a)) as [ps|] eqn:Hr.
    + rewrite (remove_member d A a e ps) by done. simpl.
      apply map_Forall_insert_2; [| done].
      simpl. eapply remove_NoDup; [done | by apply (Hd A)].
    + apply remove_None in Hr. by rewrite (remove_absent d A a e).
Qed.

Lemma serve_all_distinct (rs : list request) (d : directory) :
  rosters_distinct d → rosters_distinct (serve_all rs d).
Proof.
  revert d. induction rs as [|r rs IH]; intros d Hd; simpl; [done |].
  apply IH. by apply serve_distinct.
Qed.

Lemma NoDup_count (x : string) (l : list string) :
  NoDup l → (PyList.count x l ≤ 1)%nat.
Proof.
  induction 1 as [|y l Hy _ IH]; simpl; [lia |].
  case_decide as Hyx; [| done].
  subst y. rewrite count_notin by done. lia.
Qed.

(** C4. Whatever signup and remove requests are served from the seed on,
    successful or not, afterwards no roster holds an email twice. *)
Theorem no_duplicates (rs : list request) (A : string) (a : activity) :
  serve_all rs activities !! A = Some a →
  NoDup (participants a) ∧ ∀ e, (PyList.count e (participants a) ≤ 1)%nat.
Proof.
  intros HA.
  assert (NoDup (participants a)) as Hn.
  { by apply (serve_all_distinct rs activities seed_distinct A). }
  split; [done |]. intros e. by apply NoDup_count.
Qed.

Lemma no_duplicates_witness :
  NoDup ["daniel@mergington.edu"; "dup@mergington.edu"].
Proof.
  refine (proj1 (no_duplicates
    [Signup "Chess Club" "dup@mergington.edu";
     Signup "Chess Club" "dup@mergington.edu";
     Remove "Chess Club" "michael@mergington.edu";
     Remove "Chess Club" "michael@mergington.edu"]
    "Chess Club"
    (Activity "Learn strategies and compete in chess tournaments"
              "Fridays, 3:30 PM - 5:00 PM" 12
              ["daniel@mergington.edu"; "dup@mergington.edu"]) _)).
  vm_compute. reflexivity.
Defined.

(** *** Errors *)

(** C5. For a name that is not a key of the dict, signup and remove both
    raise HTTPException(404, "Activity not found") and leave the dict as it
    was. *)
Theorem activity_not_found (d : directory) (A e : string) :
  d !! A = None →
  signup_for_activity A e d
  = (Raise (HTTPException 404 "Activity not found"), d) ∧
  remove_participant A e d
  = (Raise (HTTPException 404 "Activity not found"), d).
Proof. intros HA. by rewrite signup_unknown, remove_unknown. Qed.

Lemma activity_not_found_witness :
  signup_for_activity "Nonexistent Club" "test@mergington.edu" activities
  = (Raise (HTTPException 404 "Activity not found"), activities) ∧
  remove_participant "Nonexistent Club" "test@mergington.edu" activities
  = (Raise (HTTPException 404 "Activity not found"), activities).
Proof. apply activity_not_found. vm_compute. reflexivity. Defined.

(** C6. Removing an email that is not on the roster of an existing activity
    raises HTTPException(404, "Participant not found in this activity") and
    leaves the whole dict, every roster included, as it was. *)
Theorem participant_not_found (d : directory) (A e : string) (a : activity) :
  d !! A = Some a → e ∉ participants a →
  remove_participant A e d
  = (Raise (HTTPException 404 "Participant not found in this activity"), d).
Proof. apply remove_absent. Qed.

Lemma participant_not_found_witness :
  remove_participant "Chess Club" "nonexistent@mergington.edu" activities
  = (Raise (HTTPException 404 "Participant not found in this activity"),
     activities).
Proof.
  eapply participant_not_found.
  - vm_compute. reflexivity.
  - compute_done.
Defined.

(** *** Capacity *)





(** *** Removal *)

(** C8. Removing an email that is on the roster of an existing activity
    returns the reply "Removed <email> from <activity>" and takes out its
    leftmost occurrence: the roster splits as [l1 ++ email :: l2] with the
    email absent from [l1], and the roster read back from the dict after the
    call is [l1 ++ l2]. *)
Theorem remove_first_occurrence (d : directory) (A e : string) (a : activity) :
  d !! A = Some a → e ∈ participants a →
  ∃ l1 l2,
    participants a = l1 ++ e :: l2 ∧ (e ∉ l1) ∧
    remove_participant A e d
    = (Return (Reply ("Removed " +:+ e +:+ " from " +:+ A)),
       <[A := with_participants (l1 ++ l2) a]> d) ∧
    participants <$> (remove_participant A e d).2 !! A = Some (l1 ++ l2) ∧
    length (l1 ++ l2) = Nat.pred (length (participants a)).
Proof.
  intros HA He.
  destruct (PyList.remove e (participants a)) as [ps|] eqn:Hr.
  - pose proof Hr as (l1 & l2 & Hps & Hl1 & ->)%remove_Some.
    exists l1, l2. rewrite (remove_member d A a e (l1 ++ l2)) by done.
    cbn [snd]. split_and!; [done | done | done | |].
    + rewrite lookup_insert_eq. reflexivity.
    + rewrite Hps, !length_app. simpl. lia.
  - by apply remove_None in Hr.
Qed.

Lemma remove_first_occurrence_witness :
  (remove_participant "Chess Club" "daniel@mergington.edu" activities).1
  = Return (Reply "Removed daniel@mergington.edu from Chess Club") ∧
  participants <$>
    (remove_participant "Chess Club" "daniel@mergington.edu" activities).2
      !! "Chess Club"
  = Some ["michael@mergington.edu"].
Proof.
  destruct (remove_first_occurrence activities "Chess Club"
    "daniel@mergington.edu"
    (Activity "Learn strategies and compete in chess tournaments"
              "Fridays, 3:30 PM - 5:00 PM" 12
              ["michael@mergington.edu"; "daniel@mergington.edu"]))
    as (l1 & l2 & Hps & Hl1 & Hrun & Hread & _).
  - vm_compute. reflexivity.
  - compute_done.
  - rewrite Hread, Hrun. split; [reflexivity |].
    simpl in Hps. destruct l1 as [|x l1]; simpl in Hps; [discriminate Hps |].
    injection Hps as <- Hps.
    destruct l1 as [|y l1]; simpl in Hps.
    + injection Hps as <-. reflexivity.
    + injection Hps as <- Hps. exfalso. apply Hl1. right. left.
Defined.

(** *** Frame *)

(** C9. Any signup or remove call, whether it returns or raises, keeps the
    set of keys of the dict, keeps [description], [schedule] and
    [max_participants] of every activity, and keeps the whole entry of every
    activity other than the one it names. *)
Theorem frame_condition (r : request) (d : directory) :
  dom (serve r d).2 = dom d ∧
  ∀ B,
    description <$> (serve r d).2 !! B = description <$> d !! B ∧
    schedule <$> (serve r d).2 !! B = schedule <$> d !! B ∧
    max_participants <$> (serve r d).2 !! B = max_participants <$> d !! B ∧
    (B ≠ target r → (serve r d).2 !! B = d !! B).
Proof.
  split.
  - apply set_eq. intros B. rewrite !elem_of_dom.
    destruct (serve_lookup r d B) as [-> | (_ & a & ps & -> & ->)]; [done |].
    split; eauto.
  - intros B.
    destruct (serve_lookup r d B) as [-> | (-> & a & ps & -> & ->)]; [done |].
    split_and!; done.
Qed.

Lemma frame_condition_witness :
  (serve (Signup "Chess Club" "new@x.edu") activities).2 !! "Gym Class"
  = activities !! "Gym Class".
Proof.
  refine (proj2 (proj2 (proj2 (proj2
    (frame_condition (Signup "Chess Club" "new@x.edu") activities) "Gym Class"))) _).
  simpl. discriminate.
Defined.

(** *** The duplicate-signup reply *)

(** C10. The reply to a signup of an email already on the roster is the
    constant "Student already signed up for this activity": it is the same
    string whatever the email and the activity are, and it is never the
    "Signed up <email> for <activity>" reply of a fresh signup. *)
Theorem already_signed_up_message (d : directory) (A e : string) (a : activity) :
  d !! A = Some a → e ∈ participants a →
  (signup_for_activity A e d).1
  = Return (Reply "Student already signed up for this activity") ∧
  (∀ d' A' e' a', d' !! A' = Some a' → e' ∈ participants a' →
     (signup_for_activity A' e' d').1 = (signup_for_activity A e d).1) ∧
  (∀ d' A' e' a', d' !! A' = Some a' → e' ∉ participants a' →
     (signup_for_activity A' e' d').1 ≠ (signup_for_activity A e d).1).
Proof.
  intros HA He. rewrite (signup_member d A a e) by done. simpl.
  split_and!; [done | |].
  - intros d' A' e' a' HA' He'. by rewrite (signup_member d' A' a' e').
  - intros d' A' e' a' HA' He'. rewrite (signup_fresh d' A' a' e') by done.
    simpl. discriminate.
Qed.

Lemma already_signed_up_message_witness :
  (signup_for_activity "Gym Class" "john@mergington.edu" activities).1
  = Return (Reply "Student already signed up for this activity").
Proof.
  refine (proj1 (already_signed_up_message
                   activities "Gym Class" "john@mergington.edu" _ _ _)).
  - vm_compute. reflexivity.
  - compute_done.
Defined.

(** ** Further properties of the handlers *)

(** What a call does is decided by the entry it names alone: on two dicts
    that agree on that entry the reply is the same, and either both dicts
    stay as they are or both get the same new entry. *)
Lemma serve_local (r : request) (d d' : directory) :
  d !! target r = d' !! target r →
  (serve r d).1 = (serve r d').1 ∧
  (((serve r d).2 = d ∧ (serve r d').2 = d') ∨
   (∃ a', (serve r d).2 = <[target r := a']> d ∧
          (serve r d').2 = <[target r := a']> d')).
Proof.
  intros Heq. destruct r as [A e | A e]; simpl in *.
  - destruct (d !! A) as [a|] eqn:HA; symmetry in Heq.
    + destruct (decide (e ∈ participants a)) as [He | He].
      * rewrite (signup_member d A a e), (signup_member d' A a e) by done.
        split; [done | by left].
      * rewrite (signup_fresh d A a e), (signup_fresh d' A a e) by done.
        split; [done | right; eauto].
    + rewrite (signup_unknown d A e), (signup_unknown d' A e) by done.
      split; [done | by left].
  - destruct (d !! A) as [a|] eqn:HA; symmetry in Heq.
    + destruct (PyList.remove e (participants a)) as [ps|] eqn:Hr.
      * rewrite (remove_member d A a e ps), (remove_member d' A a e ps) by done.
        split; [done | right; eauto].
      * apply remove_None in Hr.
        rewrite (remove_absent d A a e), (remove_absent d' A a e) by done.
        split; [done | by left].
    + rewrite (remove_unknown d A e), (remove_unknown d' A e) by done.
      split; [done | by left].
Qed.

(** The entries of the dict after a sequence of requests: the keys are the
    ones from before, and an entry differs from the earlier one in its
    roster at most. *)
Lemma serve_all_lookup (rs : list request) (d : directory) (B : string) :
  (d !! B = None ∧ serve_all rs d !! B = None) ∨
  (∃ a ps, d !! B = Some a ∧
           serve_all rs d !! B = Some (with_participants ps a)).
Proof.
  revert d. induction rs as [|r rs IH]; intros d; simpl.
  - destruct (d !! B) as [a|] eqn:HB; [right | by left].
    exists a, (participants a). by rewrite with_participants_same.
  - destruct (serve_lookup r d B) as [Hs | (_ & a & ps & HB & Hs)].
    + destruct (IH (serve r d).2) as [[H1 H2] | (a & ps & H1 & H2)].
      * left. by rewrite <- Hs.
      * right. exists a, ps. by rewrite <- Hs.
    + destruct (IH (serve r d).2) as [[H1 H2] | (a0 & qs & H1 & H2)];
        [congruence |].
      right. exists a, qs. split; [done |].
      rewrite H2. f_equal. rewrite Hs in H1. by injection H1 as <-.
Qed.

(** X1. Whatever a signup or remove call raises is an HTTPException with
    status 404 and one of the two details of app.py, never the KeyError of
    [activities[name]] nor the ValueError of [list.remove]; and a call that
    raises has left the dict as it was. *)
Theorem only_http_404 (r : request) (d : directory) (ex : exn) :
  (serve r d).1 = Raise ex →
  (serve r d).2 = d ∧
  (ex = HTTPException 404 "Activity not found" ∨
   ex = HTTPException 404 "Participant not found in this activity").
Proof.
  destruct r as [A e | A e]; simpl.
  - destruct (d !! A) as [a|] eqn:HA.
    + destruct (decide (e ∈ participants a)) as [He | He].
      * by rewrite (signup_member d A a e).
      * by rewrite (signup_fresh d A a e).
    + rewrite (signup_unknown d A e) by done. simpl. intros [= <-]. eauto.
  - destruct (d !! A) as [a|] eqn:HA.
    + destruct (PyList.remove e (participants a)) as [ps|] eqn:Hr.
      * by rewrite (remove_member d A a e ps).
      * apply remove_None in Hr. rewrite (remove_absent d A a e) by done.
        simpl. intros [= <-]. eauto.
    + rewrite (remove_unknown d A e) by done. simpl. intros [= <-]. eauto.
Qed.

Lemma only_http_404_witness :
  (serve (Remove "Soccer Team" "michael@mergington.edu") activities).2
  = activities.
Proof.
  refine (proj1 (only_http_404
    (Remove "Soccer Team" "michael@mergington.edu") activities
    (HTTPException 404 "Participant not found in this activity") _)).
  vm_compute. reflexivity.
Defined.

(** X2. A signup returns a reply exactly when the activity is a key of the
    dict, whatever the email and however long the roster; a remove returns a
    reply exactly when the activity is a key and the email is on its
    roster. *)
Theorem success_conditions (d : directory) (A e : string) :
  ((∃ m, (signup_for_activity A e d).1 = Return m) ↔ is_Some (d !! A)) ∧
  ((∃ m, (remove_participant A e d).1 = Return m) ↔
   (∃ a, d !! A = Some a ∧ e ∈ participants a)).
Proof.
  split; split.
  - intros [m Hm]. destruct (d !! A) as [a|] eqn:HA; [eauto |].
    by rewrite (signup_unknown d A e) in Hm.
  - intros [a HA]. destruct (decide (e ∈ participants a)) as [He | He].
    + rewrite (signup_member d A a e) by done. eauto.
    + rewrite (signup_fresh d A a e) by done. eauto.
  - intros [m Hm]. destruct (d !! A) as [a|] eqn:HA.
    + exists a. split; [done |].
      destruct (decide (e ∈ participants a)) as [He | He]; [done |].
      by rewrite (remove_absent d A a e) in Hm.
    + by rewrite (remove_unknown d A e) in Hm.
  - intros (a & HA & He).
    destruct (PyList.remove e (participants a)) as [ps|] eqn:Hr.
    + rewrite (remove_member d A a e ps) by done. eauto.
    + by apply remove_None in Hr.
Qed.

Lemma success_conditions_witness :
  ∃ m, (remove_participant "Gym Class" "olivia@mergington.edu" activities).1
       = Return m.
Proof.
  refine (proj2 (proj2 (success_conditions
    activities "Gym Class" "olivia@mergington.edu")) _).
  exists (Activity "Physical education and sports activities"
            "Mondays, Wednesdays, Fridays, 2:00 PM - 3:00 PM" 30
            ["john@mergington.edu"; "olivia@mergington.edu"]).
  split; [vm_compute; reflexivity | compute_done].
Defined.

Lemma members_insert (A : string) (a : activity) (d : directory) :
  members A (<[A := a]> d) = list_to_set (participants a).
Proof. unfold members. by rewrite lookup_insert_eq. Qed.

Lemma members_lookup (A : string) (a : activity) (d : directory) :
  d !! A = Some a → members A d = list_to_set (participants a).
Proof. unfold members. by intros ->. Qed.

(** X3. On a dict without duplicates the handlers are set operations on the
    roster they name: a signup adds the email to the set of members of an
    existing activity, and a remove, whether it returns or raises, leaves
    exactly the other members; the members of any other activity stay. *)
Theorem roster_as_set (d : directory) (A e : string) (a : activity) :
  rosters_distinct d → d !! A = Some a →
  members A (signup_for_activity A e d).2 = {[e]} ∪ members A d ∧
  members A (remove_participant A e d).2 = members A d ∖ {[e]} ∧
  (∀ r B, target r ≠ B → members B (serve r d).2 = members B d).
Proof.
  intros Hd HA. rewrite (members_lookup A a d HA). split_and!.
  - destruct (decide (e ∈ participants a)) as [He | He].
    + rewrite (signup_member d A a e) by done. cbn [snd].
      rewrite (members_lookup A a d HA).
      apply set_eq. intros x. rewrite elem_of_union, elem_of_singleton.
      rewrite elem_of_list_to_set. split; [by right | by intros [-> | ?]].
    + rewrite (signup_fresh d A a e) by done. cbn [snd].
      rewrite members_insert. simpl.
      apply set_eq. intros x.
      rewrite elem_of_union, elem_of_singleton, !elem_of_list_to_set.
      rewrite elem_of_app, list_elem_of_singleton. tauto.
  - destruct (PyList.remove e (participants a)) as [ps|] eqn:Hr.
    + rewrite (remove_member d A a e ps) by done. cbn [snd].
      rewrite members_insert. simpl.
      apply remove_Some in Hr as (l1 & l2 & Hps & Hl1 & ->).
      assert (e ∉ l2) as Hl2.
      { pose proof (Hd A a HA) as Hn. simpl in Hn. rewrite Hps in Hn.
        apply NoDup_app in Hn as (_ & _ & Hn).
        by apply NoDup_cons in Hn as [? _]. }
      rewrite Hps. apply set_eq. intros x.
      rewrite elem_of_difference, elem_of_singleton, !elem_of_list_to_set.
      rewrite !elem_of_app, elem_of_cons.
      split; [intros [?|?]; split; [tauto | congruence | tauto | congruence] |].
      intros [[? | [? | ?]] ?]; tauto.
    + apply remove_None in Hr. rewrite (remove_absent d A a e) by done.
      cbn [snd]. rewrite (members_lookup A a d HA).
      apply set_eq. intros x.
      rewrite elem_of_difference, elem_of_singleton, !elem_of_list_to_set.
      split; [intros ?; split; [done | congruence] | tauto].
  - intros r B Hne. unfold members.
    destruct (serve_lookup r d B) as [-> | (-> & _)]; done.
Qed.

Lemma roster_as_set_witness :
  members "Chess Club"
    (remove_participant "Chess Club" "michael@mergington.edu" activities).2
  = members "Chess Club" activities ∖ {["michael@mergington.edu"]}.
Proof.
  refine (proj1 (proj2 (roster_as_set activities "Chess Club"
    "michael@mergington.edu"
    (Activity "Learn strategies and compete in chess tournaments"
              "Fridays, 3:30 PM - 5:00 PM" 12
              ["michael@mergington.edu"; "daniel@mergington.edu"]) _ _))).
  - intros B b HB. unfold activities in HB.
    apply elem_of_list_to_map_2 in HB.
    repeat (apply elem_of_cons in HB as [[= -> ->] | HB]; [compute_done |]).
    by apply elem_of_nil in HB.
  - vm_compute. reflexivity.
Defined.

(** X4. Two calls that name different activities commute: served in either
    order each gets the reply it would get on its own, and the dict ends up
    the same. *)
Theorem different_activities_commute (r1 r2 : request) (d : directory) :
  target r1 ≠ target r2 →
  (serve r2 (serve r1 d).2).1 = (serve r2 d).1 ∧
  (serve r1 (serve r2 d).2).1 = (serve r1 d).1 ∧
  (serve r2 (serve r1 d).2).2 = (serve r1 (serve r2 d).2).2.
Proof.
  intros Hne.
  assert ((serve r1 d).2 !! target r2 = d !! target r2) as H12.
  { destruct (serve_lookup r1 d (target r2)) as [-> | (? & _)]; congruence. }
  assert ((serve r2 d).2 !! target r1 = d !! target r1) as H21.
  { destruct (serve_lookup r2 d (target r1)) as [-> | (? & _)]; congruence. }
  destruct (serve_local r2 d (serve r1 d).2) as [Hr2 Hs2]; [done |].
  destruct (serve_local r1 d (serve r2 d).2) as [Hr1 Hs1]; [done |].
  split_and!; [done | done |].
  destruct Hs2 as [[E2 E2'] | (a2 & E2 & E2')];
    destruct Hs1 as [[E1 E1'] | (a1 & E1 & E1')];
    rewrite E2', E1'; rewrite ?E1, ?E2; try done.
  by apply insert_insert_ne.
Qed.

Lemma different_activities_commute_witness :
  (serve (Remove "Gym Class" "john@mergington.edu")
     (serve (Signup "Chess Club" "new@x.edu") activities).2).2
  = (serve (Signup "Chess Club" "new@x.edu")
       (serve (Remove "Gym Class" "john@mergington.edu") activities).2).2.
Proof.
  refine (proj2 (proj2 (different_activities_commute
    (Signup "Chess Club" "new@x.edu")
    (Remove "Gym Class" "john@mergington.edu") activities _))).
  simpl. discriminate.
Defined.

(** X5. The roster keeps the order of arrival: signing up, one after the
    other, distinct emails none of which is on the roster of an existing
    activity puts them behind the earlier entries in the order of the
    calls, and changes nothing else. *)
Theorem signups_in_order (d : directory) (A : string) (a : activity)
    (es : list string) :
  d !! A = Some a → NoDup es → (∀ e, e ∈ es → e ∉ participants a) →
  serve_all (Signup A <$> es) d
  = <[A := with_participants (participants a ++ es) a]> d.
Proof.
  revert d a. induction es as [|e es IH]; intros d a HA Hes Hfresh; simpl.
  - rewrite app_nil_r, with_participants_same. symmetry. by apply insert_id.
  - apply NoDup_cons in Hes as [He Hes].
    rewrite (signup_fresh d A a e) by (done || apply Hfresh; left).
    cbn [snd].
    rewrite (IH _ (with_participants (participants a ++ [e]) a));
      [| apply lookup_insert_eq | done |].
    + simpl. rewrite insert_insert_eq, <- app_assoc. done.
    + simpl. intros x Hx [Hin | ->%list_elem_of_singleton]%elem_of_app.
      * apply (Hfresh x); [by right | done].
      * done.
Qed.

Lemma signups_in_order_witness :
  participants <$>
    serve_all (Signup "Math Club" <$> ["zoe@x.edu"; "adam@x.edu"; "mia@x.edu"])
      activities !! "Math Club"
  = Some ["zoe@x.edu"; "adam@x.edu"; "mia@x.edu"].
Proof.
  rewrite (signups_in_order activities "Math Club"
    (Activity "Solve challenging math problems and puzzles"
              "Fridays, 2:30 PM - 3:30 PM" 12 [])).
  - rewrite lookup_insert_eq. reflexivity.
  - vm_compute. reflexivity.
  - compute_done.
  - intros e _. simpl. apply not_elem_of_nil.
Defined.



(** X7. The listing after any sequence of signup and remove calls: the
    listing itself changes nothing and returns the dict as it then is, which
    has the keys it had before the calls, each with the description,
    schedule and capacity it had before. *)
Theorem listing_after_requests (rs : list request) (d : directory) :
  get_activities (serve_all rs d) = (Return (serve_all rs d), serve_all rs d) ∧
  dom (serve_all rs d) = dom d ∧
  ∀ B,
    description <$> serve_all rs d !! B = description <$> d !! B ∧
    schedule <$> serve_all rs d !! B = schedule <$> d !! B ∧
    max_participants <$> serve_all rs d !! B = max_participants <$> d !! B.
Proof.
  split_and!; [done | |].
  - apply set_eq. intros B. rewrite !elem_of_dom.
    destruct (serve_all_lookup rs d B) as [[-> ->] | (a & ps & -> & ->)];
      [done |].
    split; eauto.
  - intros B.
    destruct (serve_all_lookup rs d B) as [[-> ->] | (a & ps & -> & ->)];
      done.
Qed.

(** *** The test fixture *)

(** The dict the restoring loop ends with, entry by entry: a key the loop
    visits gets its saved roster, any other entry stays. *)
Lemma restore_lookup (names : list string) (st : gmap string Fixture.saved)
    (d : directory) :
  (∀ n, n ∈ names → is_Some (st !! n)) →
  ∃ d', Fixture.restore names st d = (Return (), d') ∧
    ∀ B, (B ∉ names → d' !! B = d !! B) ∧
         (∀ s, B ∈ names → st !! B = Some s →
            d' !! B = with_participants (Fixture.saved_participants s) <$> d !! B).
Proof.
  revert d. induction names as [|n names IH]; intros d Hst; simpl.
  - exists d. split; [done |]. intros B. split; [done |].
    by intros s ?%elem_of_nil.
  - destruct (Hst n) as [s Hs]; [by left |]. rewrite Hs.
    destruct (IH (alter (with_participants (Fixture.saved_participants s)) n d))
      as (d' & Hrun & Hd'); [intros m Hm; apply Hst; by right |].
    exists d'. split; [done |]. intros B. destruct (Hd' B) as [Hout Hin].
    split.
    + intros [Hne Hnot]%not_elem_of_cons.
      rewrite Hout by done. by apply lookup_alter_ne.
    + intros sB HB HsB.
      destruct (decide (B ∈ names)) as [Hmem | Hmem].
      * rewrite (Hin sB Hmem HsB). destruct (decide (n = B)) as [-> | Hne].
        -- rewrite lookup_alter_eq. rewrite Hs in HsB. injection HsB as ->.
           by destruct (d !! B).
        -- by rewrite lookup_alter_ne.
      * apply elem_of_cons in HB as [-> | ?]; [| done].
        rewrite Hout by done. rewrite lookup_alter_eq.
        rewrite Hs in HsB. by injection HsB as ->.
Qed.

(** X8. The fixture does reset the dict: whatever signup and remove calls
    run between the saving and the restoring, the loop raises no KeyError
    and leaves the dict exactly as it was when it was saved, in whichever
    order the keys of the dict are visited. *)
Theorem fixture_restores (rs : list request) (d : directory)
    (names : list string) :
  (∀ n, n ∈ names ↔ is_Some (serve_all rs d !! n)) →
  Fixture.restore names (Fixture.save d) (serve_all rs d) = (Return (), d).
Proof.
  intros Hnames.
  assert (∀ n, is_Some (serve_all rs d !! n) → is_Some (d !! n)) as Hkeys.
  { intros n [b Hb].
    destruct (serve_all_lookup rs d n) as [[_ ?] | (a & _ & -> & _)];
      [congruence | eauto]. }
  destruct (restore_lookup names (Fixture.save d) (serve_all rs d))
    as (d' & -> & Hd').
  { intros n Hn%Hnames%Hkeys. unfold Fixture.save. rewrite lookup_fmap.
    by apply fmap_is_Some. }
  f_equal. apply map_eq. intros B. destruct (Hd' B) as [Hout Hin].
  destruct (serve_all_lookup rs d B) as [[HB HB'] | (a & ps & HB & HB')].
  - rewrite Hout; [congruence |].
    intros Hmem%Hnames. rewrite HB' in Hmem. by destruct Hmem.
  - rewrite (Hin (Fixture.Saved (participants a))).
    + rewrite HB', HB. simpl. f_equal. by destruct a.
    + apply Hnames. rewrite HB'. eauto.
    + unfold Fixture.save. by rewrite lookup_fmap, HB.
Qed.

Lemma fixture_restores_witness :
  Fixture.restore
    ["Chess Club"; "Programming Class"; "Gym Class"; "Soccer Team";
     "Basketball Team"; "Art Club"; "Drama Club"; "Math Club"; "Robotics Club"]
    (Fixture.save activities)
    (serve_all [Signup "Chess Club" "duplicate@mergington.edu";
                Signup "Chess Club" "duplicate@mergington.edu";
                Remove "Gym Class" "john@mergington.edu"] activities)
  = (Return (), activities).
Proof.
  apply fixture_restores. intros n.
  rewrite <- elem_of_dom, <- (elem_of_list_to_set (C := gset string)).
  assert (dom (serve_all [Signup "Chess Club" "duplicate@mergington.edu";
                          Signup "Chess Club" "duplicate@mergington.edu";
                          Remove "Gym Class" "john@mergington.edu"] activities)
          = list_to_set
              ["Chess Club"; "Programming Class"; "Gym Class"; "Soccer Team";
               "Basketball Team"; "Art Club"; "Drama Club"; "Math Club";
               "Robotics Club"] :> gset string) as ->; [| done].
  vm_compute. reflexivity.
Defined.

(** *** Occurrences and calls on one roster *)

(** X9. What the handlers do to the number of occurrences of each email on
    the roster of an existing activity, duplicates or not: a signup brings
    the email to at least one occurrence and never adds a second, a remove
    takes away one occurrence if there is any, and the occurrences of every
    other email stay as they are. *)
Theorem occurrences (d : directory) (A e : string) (a : activity) :
  d !! A = Some a →
  (∃ a', (signup_for_activity A e d).2 !! A = Some a' ∧
     ∀ x, PyList.count x (participants a')
          = if decide (x = e) then Nat.max 1 (PyList.count e (participants a))
            else PyList.count x (participants a)) ∧
  (∃ a', (remove_participant A e d).2 !! A = Some a' ∧
     ∀ x, PyList.count x (participants a')
          = if decide (x = e) then Nat.pred (PyList.count e (participants a))
            else PyList.count x (participants a)).
Proof.
  intros HA. split.
  - destruct (decide (e ∈ participants a)) as [He | He].
    + rewrite (signup_member d A a e) by done. exists a. split; [done |].
      intros x. case_decide as Hx; [subst x | done].
      apply count_pos in He. lia.
    + rewrite (signup_fresh d A a e) by done. cbn [snd].
      eexists. split; [apply lookup_insert_eq |].
      intros x. simpl. rewrite count_app. simpl.
      case_decide as Hx.
      * subst x. rewrite decide_True by done.
        rewrite (count_notin e) by done. done.
      * rewrite decide_False by congruence. lia.
  - destruct (PyList.remove e (participants a)) as [ps|] eqn:Hr.
    + rewrite (remove_member d A a e ps) by done. cbn [snd].
      eexists. split; [apply lookup_insert_eq |].
      intros x. simpl.
      apply remove_Some in Hr as (l1 & l2 & -> & _ & ->).
      rewrite !count_app. simpl. case_decide as Hx.
      * subst x. rewrite decide_True by done. lia.
      * rewrite decide_False by congruence. done.
    + apply remove_None in Hr. rewrite (remove_absent d A a e) by done.
      exists a. split; [done |].
      intros x. case_decide as Hx; [subst x | done].
      by rewrite count_notin.
Qed.

Lemma occurrences_witness :
  ∃ a', (remove_participant "Chess Club" "daniel@mergington.edu" activities).2
          !! "Chess Club" = Some a' ∧
        PyList.count "daniel@mergington.edu" (participants a') = 0%nat.
Proof.
  destruct (occurrences activities "Chess Club" "daniel@mergington.edu"
    (Activity "Learn strategies and compete in chess tournaments"
              "Fridays, 3:30 PM - 5:00 PM" 12
              ["michael@mergington.edu"; "daniel@mergington.edu"]))
    as [_ (a' & Ha' & Hc)].
  - vm_compute. reflexivity.
  - exists a'. split; [exact Ha' |].
    rewrite Hc. reflexivity.
Defined.

Section PyListCommute.
Implicit Types (x y : string) (l r k : list string).

Lemma remove_keeps_others x y l r :
  PyList.remove x l = Some r → y ≠ x → y ∈ r ↔ y ∈ l.
Proof.
  intros (l1 & l2 & -> & _ & ->)%remove_Some Hne.
  rewrite !elem_of_app, elem_of_cons. intuition congruence.
Qed.

Lemma remove_app_l x l r k :
  PyList.remove x l = Some r → PyList.remove x (l ++ k) = Some (r ++ k).
Proof.
  intros (l1 & l2 & -> & Hx & ->)%remove_Some.
  apply remove_Some. exists l1, (l2 ++ k).
  by rewrite <- !app_assoc.
Qed.

Lemma remove_remove x y l r1 r2 :
  x ≠ y → PyList.remove x l = Some r1 → PyList.remove y l = Some r2 →
  ∃ r, PyList.remove y r1 = Some r ∧ PyList.remove x r2 = Some r.
Proof.
  intros Hne. revert r1 r2.
  induction l as [|z l IH]; intros r1 r2; simpl; [done |].
  destruct (decide (z = x)) as [-> | Hzx].
  - rewrite decide_False by done. intros [= <-].
    destruct (PyList.remove y l) as [r|] eqn:Hy; [| done].
    intros [= <-]. exists r. simpl. by rewrite decide_True.
  - destruct (PyList.remove x l) as [r1'|] eqn:Hx; [| done].
    intros [= <-]. destruct (decide (z = y)) as [-> | Hzy].
    + intros [= <-]. exists r1'. simpl. by rewrite decide_True.
    + destruct (PyList.remove y l) as [r2'|] eqn:Hy; [| done].
      intros [= <-]. destruct (IH r1' r2' eq_refl eq_refl) as (r & H1 & H2).
      exists (z :: r). simpl.
      rewrite !decide_False by done. by rewrite H1, H2.
Qed.

End PyListCommute.

(** X10. On one activity, a signup of one email and a remove of another
    commute, and so do two removes of different emails: each call gets the
    reply it would get on its own and the dict ends up the same in either
    order. *)
Theorem different_emails_commute (d : directory) (A e1 e2 : string) :
  e1 ≠ e2 →
  ((remove_participant A e2 (signup_for_activity A e1 d).2).1
   = (remove_participant A e2 d).1 ∧
   (signup_for_activity A e1 (remove_participant A e2 d).2).1
   = (signup_for_activity A e1 d).1 ∧
   (remove_participant A e2 (signup_for_activity A e1 d).2).2
   = (signup_for_activity A e1 (remove_participant A e2 d).2).2) ∧
  ((remove_participant A e2 (remove_participant A e1 d).2).1
   = (remove_participant A e2 d).1 ∧
   (remove_participant A e2 (remove_participant A e1 d).2).2
   = (remove_participant A e1 (remove_participant A e2 d).2).2).
Proof.
  intros Hne. destruct (d !! A) as [a|] eqn:HA.
  2:{ repeat (first [ rewrite (signup_unknown d A) by done
                    | rewrite (remove_unknown d A) by done ];
              cbn [fst snd]).
      done. }
  split.
  - destruct (PyList.remove e2 (participants a)) as [r2|] eqn:Hr2;
      destruct (decide (e1 ∈ participants a)) as [He1 | He1].
    + rewrite (signup_member d A a e1), (remove_member d A a e2 r2) by done.
      cbn [snd]. rewrite (remove_member d A a e2 r2) by done.
      rewrite (signup_member _ A (with_participants r2 a) e1);
        [done | apply lookup_insert_eq |].
      simpl. by apply (remove_keeps_others e2 e1 (participants a)).
    + rewrite (signup_fresh d A a e1), (remove_member d A a e2 r2) by done.
      cbn [snd].
      rewrite (remove_member _ A (with_participants (participants a ++ [e1]) a)
                 e2 (r2 ++ [e1]));
        [| apply lookup_insert_eq | by apply remove_app_l].
      rewrite (signup_fresh _ A (with_participants r2 a) e1);
        [| apply lookup_insert_eq |].
      * simpl. by rewrite !insert_insert_eq.
      * simpl. by rewrite (remove_keeps_others e2 e1 (participants a)).
    + apply remove_None in Hr2.
      rewrite (signup_member d A a e1), (remove_absent d A a e2) by done.
      cbn [snd].
      by rewrite (signup_member d A a e1), (remove_absent d A a e2).
    + apply remove_None in Hr2.
      rewrite (signup_fresh d A a e1), (remove_absent d A a e2) by done.
      cbn [snd]. rewrite (signup_fresh d A a e1) by done.
      rewrite (remove_absent _ A (with_participants (participants a ++ [e1]) a) e2);
        [done | apply lookup_insert_eq |].
      simpl. rewrite elem_of_app, list_elem_of_singleton. intuition congruence.
  - destruct (PyList.remove e1 (participants a)) as [r1|] eqn:Hr1;
      destruct (PyList.remove e2 (participants a)) as [r2|] eqn:Hr2.
    + destruct (remove_remove e1 e2 (participants a) r1 r2) as (r & H1 & H2);
        [done .. |].
      rewrite (remove_member d A a e1 r1), (remove_member d A a e2 r2) by done.
      cbn [snd].
      rewrite (remove_member _ A (with_participants r1 a) e2 r);
        [| apply lookup_insert_eq | done].
      rewrite (remove_member _ A (with_participants r2 a) e1 r);
        [| apply lookup_insert_eq | done].
      simpl. by rewrite !insert_insert_eq.
    + apply remove_None in Hr2.
      rewrite (remove_member d A a e1 r1), (remove_absent d A a e2) by done.
      cbn [snd]. rewrite (remove_member d A a e1 r1) by done.
      rewrite (remove_absent _ A (with_participants r1 a) e2);
        [done | apply lookup_insert_eq |].
      simpl. by rewrite (remove_keeps_others e1 e2 (participants a)).
    + apply remove_None in Hr1.
      rewrite (remove_absent d A a e1), (remove_member d A a e2 r2) by done.
      cbn [snd]. rewrite (remove_member d A a e2 r2) by done.
      rewrite (remove_absent _ A (with_participants r2 a) e1);
        [done | apply lookup_insert_eq |].
      simpl. by rewrite (remove_keeps_others e2 e1 (participants a)).
    + apply remove_None in Hr1. apply remove_None in Hr2.
      rewrite (remove_absent d A a e1), (remove_absent d A a e2) by done.
      cbn [snd].
      by rewrite (remove_absent d A a e1), (remove_absent d A a e2).
Qed.

Lemma different_emails_commute_witness :
  (remove_participant "Chess Club" "michael@mergington.edu"
     (signup_for_activity "Chess Club" "new@x.edu" activities).2).2
  = (signup_for_activity "Chess Club" "new@x.edu"
       (remove_participant "Chess Club" "michael@mergington.edu" activities).2).2.
Proof.
  refine (proj2 (proj2 (proj1 (different_emails_commute
    activities "Chess Club" "new@x.edu" "michael@mergington.edu" _)))).
  discriminate.
Defined.
